(** * ECR cross-account image sync: the Lambda handler of [lambda.py]

    A shallow embedding of [lambda_handler] and the properties of its
    control flow: input validation, configuration lookup, the two registry
    calls and the classification of their failures. *)

From stdpp Require Import base option list strings gmap fin_maps.

(** ** Python values *)

(** The leaves of the JSON documents the handler touches: [None] or a [str]. *)
Inductive pyval : Type :=
| PyNone
| PyStr (s : string).

#[global] Instance pyval_eq_dec : EqDecision pyval.
Proof. solve_decision. Defined.

(** Truth value of an object, as tested by [if x], [not x] and [x or y]. *)
Definition truthy (v : pyval) : bool :=
  match v with
  | PyNone => false
  | PyStr s => negb (String.eqb s "")
  end.

(** [a or b] *)
Definition py_or (a b : pyval) : pyval := if truthy a then a else b.

(** [str(v)], the text an f-string substitutes for [{v}]. *)
Definition py_str (v : pyval) : string :=
  match v with
  | PyNone => "None"
  | PyStr s => s
  end.

(** [s.startswith(p)] *)
Fixpoint startswith (p s : string) : bool :=
  match p, s with
  | EmptyString, _ => true
  | String a p', String b s' => if Ascii.eqb a b then startswith p' s' else false
  | String _ _, EmptyString => false
  end.

(** [needle in hay] on strings. *)
Fixpoint str_contains (hay needle : string) : bool :=
  startswith needle hay ||
  match hay with
  | EmptyString => false
  | String _ hay' => str_contains hay' needle
  end.

(** ** Exceptions and outcomes *)

(** The exception classes the handler distinguishes.  boto3 builds one class
    per service error code and shares it between the clients of a session, so
    [ecr_source.exceptions.X] and [ecr_dest.exceptions.X] are the same class.
    [OtherException] stands for an exception of any further class. *)
Inductive exn : Type :=
| KeyError (key : string)
| ImageNotFoundException (msg : string)
| ImageAlreadyExistsException (msg : string)
| OtherException (cls msg : string).

#[global] Instance exn_eq_dec : EqDecision exn.
Proof. solve_decision. Defined.

Inductive outcome (A : Type) : Type :=
| Returned (a : A)
| Raised (e : exn).
Arguments Returned {A} a.
Arguments Raised {A} e.

(** ** The registry API *)

(** Keyword arguments of [batch_get_image]. *)
Record BatchGetImageRequest : Type := {
  registryId : string;
  repositoryName : string;
  imageIds : list (gmap string pyval);
  acceptedMediaTypes : list string
}.

(** The response of [batch_get_image]: a dict whose ["images"] entry is a
    list of image dicts. *)
Abbreviation BatchGetImageResponse := (gmap string (list (gmap string pyval))).

(** The response of [put_image]: [result["image"]["imageId"]["imageDigest"]]
    is read through three dicts. *)
Abbreviation PutImageResponse := (gmap string (gmap string (gmap string pyval))).

(** An ECR client: what each of its two methods answers to a request. *)
Record EcrClient : Type := {
  batch_get_image : BatchGetImageRequest -> outcome BatchGetImageResponse;
  put_image : gmap string pyval -> outcome PutImageResponse
}.

(** What the handler runs in: the process environment and boto3. *)
Record World : Type := {
  environ : gmap string string;
  boto3_client_ecr : string -> EcrClient
}.

(** What an invocation does to the outside, in order. *)
Inductive Action : Type :=
| GetEnv (key : string)
| CreateClient (region_name : string)
| CallBatchGetImage (region_name : string) (req : BatchGetImageRequest)
    (res : outcome BatchGetImageResponse)
| CallPutImage (region_name : string) (req : gmap string pyval)
    (res : outcome PutImageResponse).

(** ** The monad of the handler: reads the world, logs actions, may raise *)

Definition M (A : Type) : Type := World -> list Action * outcome A.

#[global] Instance M_ret : MRet M := fun A a _ => ([], Returned a).

#[global] Instance M_bind : MBind M := fun A B f m w =>
  match m w with
  | (t, Raised e) => (t, Raised e)
  | (t, Returned a) =>
      match f a w with
      | (t', r) => (t ++ t', r)
      end
  end.

Definition raise {A : Type} (e : exn) : M A := fun _ => ([], Raised e).

(** [try: body  except ...: handler] *)
Definition try_except {A : Type} (body : M A) (handler : exn -> M A) : M A :=
  fun w =>
    match body w with
    | (t, Raised e) =>
        match handler e w with
        | (t', r) => (t ++ t', r)
        end
    | (t, Returned a) => (t, Returned a)
    end.

(** [os.environ[key]] *)
Definition os_environ (key : string) : M string := fun w =>
  ([GetEnv key],
   match environ w !! key with
   | Some v => Returned v
   | None => Raised (KeyError key)
   end).

(** [d[key]] on a dict. *)
Definition getitem {V : Type} (d : gmap string V) (key : string) : M V :=
  match d !! key with
  | Some v => mret v
  | None => raise (KeyError key)
  end.

(** A client remembers the region it was created for. *)
Record client : Type := { region_of : string; api : EcrClient }.

(** [boto3.client("ecr", region_name=r)] *)
Definition boto3_client (region_name : string) : M client := fun w =>
  ([CreateClient region_name],
   Returned {| region_of := region_name; api := boto3_client_ecr w region_name |}).

Definition call_batch_get_image (c : client) (req : BatchGetImageRequest)
  : M BatchGetImageResponse := fun _ =>
  let res := batch_get_image (api c) req in
  ([CallBatchGetImage (region_of c) req res], res).

Definition call_put_image (c : client) (req : gmap string pyval)
  : M PutImageResponse := fun _ =>
  let res := put_image (api c) req in
  ([CallPutImage (region_of c) req res], res).

(** ** The handler *)

Definition accepted_media_types : list string :=
  [ "application/vnd.docker.distribution.manifest.v2+json";
    "application/vnd.oci.image.manifest.v1+json";
    "application/vnd.docker.distribution.manifest.list.v2+json" ].

(** [lambda_handler(event, context)].  The [print] calls only write to the
    log and are left out; [context] is never used. *)
Definition lambda_handler (event : gmap string (gmap string pyval)) (context : unit)
  : M (gmap string pyval) :=
  let detail := default ∅ (event !! "detail") in
  let image_tag := default PyNone (detail !! "image-tag") in
  let image_digest := default PyNone (detail !! "image-digest") in
  repo_name ← os_environ "REPO_NAME";
  if negb (truthy image_tag) && negb (truthy image_digest) then
    mret {[ "status" := PyStr "error";
            "message" := PyStr "No image tag or digest in event" ]}
  else
    source_account ← os_environ "SOURCE_ACCOUNT_ID";
    source_region ← os_environ "SOURCE_REGION";
    dest_account ← os_environ "DESTINATION_ACCOUNT_ID";
    dest_region ← os_environ "DESTINATION_REGION";
    ecr_source ← boto3_client source_region;
    ecr_dest ← boto3_client dest_region;
    try_except
      (let image_id : gmap string pyval :=
         if truthy image_tag then {[ "imageTag" := image_tag ]}
         else {[ "imageDigest" := image_digest ]} in
       source_image ← call_batch_get_image ecr_source
         {| registryId := source_account;
            repositoryName := repo_name;
            imageIds := [image_id];
            acceptedMediaTypes := accepted_media_types |};
       match source_image !! "images" with
       | None | Some [] =>
           mret {[ "status" := PyStr "error";
                   "message" := PyStr ("Image not found: "
                                       +:+ py_str (py_or image_tag image_digest)) ]}
       | Some (image0 :: _) =>
           image_manifest ← getitem image0 "imageManifest";
           let manifest_media_type :=
             default PyNone (image0 !! "imageManifestMediaType") in
           let put_params : gmap string pyval :=
             {[ "registryId" := PyStr dest_account;
                "repositoryName" := PyStr repo_name;
                "imageManifest" := image_manifest ]} in
           let put_params :=
             if truthy image_tag then <[ "imageTag" := image_tag ]> put_params
             else put_params in
           let put_params :=
             if truthy manifest_media_type
             then <[ "imageManifestMediaType" := manifest_media_type ]> put_params
             else put_params in
           result ← call_put_image ecr_dest put_params;
           image ← getitem result "image";
           imageId ← getitem image "imageId";
           dest_digest ← getitem imageId "imageDigest";
           mret {[ "status" := PyStr "success";
                   "source_account" := PyStr source_account;
                   "destination_account" := PyStr dest_account;
                   "repository" := PyStr repo_name;
                   "tag" := image_tag;
                   "digest" := dest_digest ]}
       end)
      (fun e =>
         match e with
         | ImageNotFoundException _ =>
             mret {[ "status" := PyStr "error";
                     "message" := PyStr ("Image not found in source: "
                                         +:+ py_str image_tag) ]}
         | ImageAlreadyExistsException _ =>
             mret {[ "status" := PyStr "skipped";
                     "message" := PyStr "Image already exists";
                     "tag" := image_tag ]}
         | _ => raise e
         end).

(** ** Concrete worlds used in the examples *)

Definition full_env : gmap string string :=
  {[ "REPO_NAME" := "app";
     "SOURCE_ACCOUNT_ID" := "111111111111";
     "SOURCE_REGION" := "us-east-1";
     "DESTINATION_ACCOUNT_ID" := "222222222222";
     "DESTINATION_REGION" := "eu-west-1" ]}.

Definition manifest_v2 : string := "{schemaVersion: 2}".
Definition media_v2 : string := "application/vnd.docker.distribution.manifest.v2+json".

Definition one_image : BatchGetImageResponse :=
  {[ "images" := [ ({[ "imageManifest" := PyStr manifest_v2;
                       "imageManifestMediaType" := PyStr media_v2 ]}
                    : gmap string pyval) ] ]}.

Definition pushed (digest : string) : PutImageResponse :=
  {[ "image" := {[ "imageId" := {[ "imageDigest" := PyStr digest ]} ]} ]}.

(** A registry that has the image and accepts the push. *)
Definition ecr_ok : EcrClient :=
  {| batch_get_image := fun _ => Returned one_image;
     put_image := fun _ => Returned (pushed "sha256:d0") |}.

Definition world_ok : World :=
  {| environ := full_env; boto3_client_ecr := fun _ => ecr_ok |}.

Definition tag_event (t : string) : gmap string (gmap string pyval) :=
  {[ "detail" := {[ "image-tag" := PyStr t ]} ]}.

Definition digest_event (d : string) : gmap string (gmap string pyval) :=
  {[ "detail" := {[ "image-digest" := PyStr d ]} ]}.

Definition both_event (t d : string) : gmap string (gmap string pyval) :=
  {[ "detail" := {[ "image-tag" := PyStr t; "image-digest" := PyStr d ]} ]}.

Definition event_of (detail : gmap string pyval) : gmap string (gmap string pyval) :=
  {[ "detail" := detail ]}.

(** A registry whose source lookup raises the not-found exception. *)
Definition ecr_not_found : EcrClient :=
  {| batch_get_image := fun _ => Raised (ImageNotFoundException "no such image");
     put_image := fun _ => Returned (pushed "sha256:d0") |}.

(** A registry that answers the lookup with an empty image list. *)
Definition ecr_empty : EcrClient :=
  {| batch_get_image := fun _ => Returned {[ "images" := [] ]};
     put_image := fun _ => Returned (pushed "sha256:d0") |}.

(** A registry that already holds the image that is pushed. *)
Definition ecr_exists : EcrClient :=
  {| batch_get_image := fun _ => Returned one_image;
     put_image := fun _ => Raised (ImageAlreadyExistsException "already there") |}.

(** A registry whose push fails for a reason of its own. *)
Definition ecr_throttled : EcrClient :=
  {| batch_get_image := fun _ => Returned one_image;
     put_image := fun _ => Raised (OtherException "ThrottlingException" "slow down") |}.

Definition world_with (env : gmap string string) (c : EcrClient) : World :=
  {| environ := env; boto3_client_ecr := fun _ => c |}.

(** Only the repository name is configured. *)
Definition repo_only_env : gmap string string := {[ "REPO_NAME" := "app" ]}.

(** ** What the handler reads from an event *)

(** The [image_tag] and [image_digest] of lines 43-45. *)
Definition event_tag (event : gmap string (gmap string pyval)) : pyval :=
  default PyNone (default ∅ (event !! "detail") !! "image-tag").

Definition event_digest (event : gmap string (gmap string pyval)) : pyval :=
  default PyNone (default ∅ (event !! "detail") !! "image-digest").

(** The five configuration keys, in the order the handler reads them. *)
Definition required_keys : list string :=
  [ "REPO_NAME"; "SOURCE_ACCOUNT_ID"; "SOURCE_REGION";
    "DESTINATION_ACCOUNT_ID"; "DESTINATION_REGION" ].

(** The fields a push request can have. *)
Definition put_image_fields : list string :=
  [ "registryId"; "repositoryName"; "imageManifest"; "imageTag";
    "imageManifestMediaType" ].

(** Actions that create or call a registry client. *)
Definition uses_client (a : Action) : bool :=
  match a with
  | GetEnv _ => false
  | CreateClient _ | CallBatchGetImage _ _ _ | CallPutImage _ _ _ => true
  end.

(** ** The handler as a decision tree

    The same computation with the monad unfolded: one [match] per question
    the handler asks the world, each leaf a trace and an outcome.
    [lambda_handler_run] below proves that it is the handler. *)

(** How the [except] clauses answer an exception raised in the [try] block. *)
Definition on_exception (image_tag : pyval) (e : exn) : outcome (gmap string pyval) :=
  match e with
  | ImageNotFoundException _ =>
      Returned {[ "status" := PyStr "error";
                  "message" := PyStr ("Image not found in source: "
                                      +:+ py_str image_tag) ]}
  | ImageAlreadyExistsException _ =>
      Returned {[ "status" := PyStr "skipped";
                  "message" := PyStr "Image already exists";
                  "tag" := image_tag ]}
  | _ => Raised e
  end.

(** [result["image"]["imageId"]["imageDigest"]] *)
Definition read_digest (result : PutImageResponse) : outcome pyval :=
  match result !! "image" with
  | None => Raised (KeyError "image")
  | Some image =>
      match image !! "imageId" with
      | None => Raised (KeyError "imageId")
      | Some imageId =>
          match imageId !! "imageDigest" with
          | None => Raised (KeyError "imageDigest")
          | Some dest_digest => Returned dest_digest
          end
      end
  end.

Definition handler_run (event : gmap string (gmap string pyval)) (w : World)
  : list Action * outcome (gmap string pyval) :=
  let image_tag := event_tag event in
  let image_digest := event_digest event in
  match environ w !! "REPO_NAME" with
  | None => ([GetEnv "REPO_NAME"], Raised (KeyError "REPO_NAME"))
  | Some repo_name =>
  if negb (truthy image_tag) && negb (truthy image_digest) then
    ([GetEnv "REPO_NAME"],
     Returned {[ "status" := PyStr "error";
                 "message" := PyStr "No image tag or digest in event" ]})
  else
  match environ w !! "SOURCE_ACCOUNT_ID" with
  | None => ([GetEnv "REPO_NAME"; GetEnv "SOURCE_ACCOUNT_ID"],
             Raised (KeyError "SOURCE_ACCOUNT_ID"))
  | Some source_account =>
  match environ w !! "SOURCE_REGION" with
  | None => ([GetEnv "REPO_NAME"; GetEnv "SOURCE_ACCOUNT_ID"; GetEnv "SOURCE_REGION"],
             Raised (KeyError "SOURCE_REGION"))
  | Some source_region =>
  match environ w !! "DESTINATION_ACCOUNT_ID" with
  | None => ([GetEnv "REPO_NAME"; GetEnv "SOURCE_ACCOUNT_ID"; GetEnv "SOURCE_REGION";
              GetEnv "DESTINATION_ACCOUNT_ID"],
             Raised (KeyError "DESTINATION_ACCOUNT_ID"))
  | Some dest_account =>
  match environ w !! "DESTINATION_REGION" with
  | None => ([GetEnv "REPO_NAME"; GetEnv "SOURCE_ACCOUNT_ID"; GetEnv "SOURCE_REGION";
              GetEnv "DESTINATION_ACCOUNT_ID"; GetEnv "DESTINATION_REGION"],
             Raised (KeyError "DESTINATION_REGION"))
  | Some dest_region =>
  let opened :=
    [GetEnv "REPO_NAME"; GetEnv "SOURCE_ACCOUNT_ID"; GetEnv "SOURCE_REGION";
     GetEnv "DESTINATION_ACCOUNT_ID"; GetEnv "DESTINATION_REGION";
     CreateClient source_region; CreateClient dest_region] in
  let lookup :=
    {| registryId := source_account;
       repositoryName := repo_name;
       imageIds := [if truthy image_tag
                    then ({[ "imageTag" := image_tag ]} : gmap string pyval)
                    else {[ "imageDigest" := image_digest ]}];
       acceptedMediaTypes := accepted_media_types |} in
  let fetched := batch_get_image (boto3_client_ecr w source_region) lookup in
  let fetch := CallBatchGetImage source_region lookup fetched in
  match fetched with
  | Raised e => (opened ++ [fetch], on_exception image_tag e)
  | Returned source_image =>
  match source_image !! "images" with
  | None | Some [] =>
      (opened ++ [fetch],
       Returned {[ "status" := PyStr "error";
                   "message" := PyStr ("Image not found: "
                                       +:+ py_str (py_or image_tag image_digest)) ]})
  | Some (image0 :: _) =>
  match image0 !! "imageManifest" with
  | None => (opened ++ [fetch], Raised (KeyError "imageManifest"))
  | Some image_manifest =>
  let manifest_media_type := default PyNone (image0 !! "imageManifestMediaType") in
  let put_params : gmap string pyval :=
    {[ "registryId" := PyStr dest_account;
       "repositoryName" := PyStr repo_name;
       "imageManifest" := image_manifest ]} in
  let put_params :=
    if truthy image_tag then <[ "imageTag" := image_tag ]> put_params
    else put_params in
  let put_params :=
    if truthy manifest_media_type
    then <[ "imageManifestMediaType" := manifest_media_type ]> put_params
    else put_params in
  let pushed := put_image (boto3_client_ecr w dest_region) put_params in
  (opened ++ [fetch; CallPutImage dest_region put_params pushed],
   match pushed with
   | Raised e => on_exception image_tag e
   | Returned result =>
       match read_digest result with
       | Raised e => Raised e
       | Returned dest_digest =>
           Returned {[ "status" := PyStr "success";
                       "source_account" := PyStr source_account;
                       "destination_account" := PyStr dest_account;
                       "repository" := PyStr repo_name;
                       "tag" := image_tag;
                       "digest" := dest_digest ]}
       end
   end)
  end end end end end end end end.

(** ** Reading the configuration *)

(** The first key of [keys] that the environment lacks. *)
Fixpoint first_missing (env : gmap string string) (keys : list string)
  : option string :=
  match keys with
  | [] => None
  | k :: ks =>
      match env !! k with
      | None => Some k
      | Some _ => first_missing env ks
      end
  end.

(** The keys read when [keys] are looked up in order and the first missing
    one stops the reading. *)
Fixpoint read_until (env : gmap string string) (keys : list string)
  : list string :=
  match keys with
  | [] => []
  | k :: ks =>
      k :: match env !! k with
           | None => []
           | Some _ => read_until env ks
           end
  end.

(** ** Counting registry calls *)

Definition is_lookup (a : Action) : bool :=
  match a with
  | CallBatchGetImage _ _ _ => true
  | _ => false
  end.

Definition is_push (a : Action) : bool :=
  match a with
  | CallPutImage _ _ _ => true
  | _ => false
  end.


(** The values a result can have under ["status"]. *)
Definition statuses : list string := [ "success"; "error"; "skipped" ].

(** An event as EventBridge sends it for a push: the detail names a
    repository of its own. *)
Definition push_event (repository t : string) : gmap string (gmap string pyval) :=
  {[ "detail" := {[ "repository-name" := PyStr repository;
                    "image-tag" := PyStr t;
                    "action-type" := PyStr "PUSH";
                    "result" := PyStr "SUCCESS" ]} ]}.

(** A lookup answer whose image has no manifest. *)
Definition ecr_no_manifest : EcrClient :=
  {| batch_get_image := fun _ =>
       Returned {[ "images" := [ ({[ "imageManifestMediaType" := PyStr media_v2 ]}
                                  : gmap string pyval) ] ]};
     put_image := fun _ => Returned (pushed "sha256:d0") |}.

(** A push answer without the digest of the image. *)
Definition ecr_no_digest : EcrClient :=
  {| batch_get_image := fun _ => Returned one_image;
     put_image := fun _ => Returned {[ "image" := {[ "imageId" := ∅ ]} ]} |}.

(** The full configuration with one more variable set. *)
Definition noisy_env : gmap string string :=
  <[ "AWS_REGION" := "ap-south-1" ]> full_env.

(** * Properties *)

(** ** Strings *)

Lemma startswith_app (p s : string) : startswith p (p +:+ s) = true.
Proof.
  induction p as [|a p IH]; simpl; [reflexivity|].
  rewrite Ascii.eqb_refl. exact IH.
Qed.

Lemma startswith_refl (s : string) : startswith s s = true.
Proof.
  induction s as [|a s IH]; simpl; [reflexivity|].
  rewrite Ascii.eqb_refl. exact IH.
Qed.

(** A message that ends with [s] contains [s]. *)
Lemma str_contains_suffix (p s : string) : str_contains (p +:+ s) s = true.
Proof.
  induction p as [|a p IH].
  - destruct s; simpl; [reflexivity|].
    rewrite Ascii.eqb_refl, startswith_refl. reflexivity.
  - change (String a p +:+ s) with (String a (p +:+ s)).
    change (str_contains (String a (p +:+ s)) s)
      with (startswith s (String a (p +:+ s)) || str_contains (p +:+ s) s).
    rewrite IH. apply orb_true_r.
Qed.

(** [str_contains] finds exactly the infixes. *)
Lemma startswith_spec (p s : string) :
  startswith p s = true <-> exists post, s = p +:+ post.
Proof.
  revert s. induction p as [|a p IH]; intros s; simpl.
  - split; [intros _; exists s; reflexivity | reflexivity].
  - destruct s as [|b s].
    + split; [discriminate | intros [post H]; discriminate].
    + destruct (Ascii.eqb_spec a b) as [->|Hne].
      * rewrite IH. split; intros [post H]; exists post.
        -- simpl. by rewrite H.
        -- simpl in H. by inversion H.
      * split; [discriminate|]. intros [post H]. simpl in H. inversion H. done.
Qed.

Lemma str_contains_spec (hay needle : string) :
  str_contains hay needle = true <-> exists pre post, hay = pre +:+ needle +:+ post.
Proof.
  induction hay as [|a hay IH].
  - simpl. rewrite orb_false_r, startswith_spec. split.
    + intros [post H]. exists "", post. exact H.
    + intros [pre [post H]]. destruct pre; [exists post; exact H | discriminate].
  - change (str_contains (String a hay) needle)
      with (startswith needle (String a hay) || str_contains hay needle).
    rewrite orb_true_iff, startswith_spec, IH. split.
    + intros [[post H]|[pre [post H]]].
      * exists "", post. exact H.
      * exists (String a pre), post. simpl. by rewrite H.
    + intros [pre [post H]]. destruct pre as [|b pre].
      * left. exists post. exact H.
      * right. exists pre, post. simpl in H. by inversion H.
Qed.

(** ** The handler is its decision tree *)

Lemma lambda_handler_run event context w :
  lambda_handler event context w = handler_run event w.
Proof.
  cbv beta iota zeta delta
    [lambda_handler handler_run mbind M_bind mret M_ret os_environ boto3_client
     try_except call_batch_get_image call_put_image getitem raise read_digest
     region_of api].
  change (default PyNone (default ∅ (event !! "detail") !! "image-tag"))
    with (event_tag event).
  change (default PyNone (default ∅ (event !! "detail") !! "image-digest"))
    with (event_digest event).
  destruct (environ w !! "REPO_NAME") as [repo_name|]; [|reflexivity].
  destruct (negb (truthy (event_tag event)) && negb (truthy (event_digest event)));
    [reflexivity|].
  destruct (environ w !! "SOURCE_ACCOUNT_ID") as [source_account|]; [|reflexivity].
  destruct (environ w !! "SOURCE_REGION") as [source_region|]; [|reflexivity].
  destruct (environ w !! "DESTINATION_ACCOUNT_ID") as [dest_account|]; [|reflexivity].
  destruct (environ w !! "DESTINATION_REGION") as [dest_region|]; [|reflexivity].
  destruct (batch_get_image _ _) as [source_image|e]; [|destruct e; reflexivity].
  destruct (source_image !! "images") as [[|image0 rest]|]; [reflexivity| |reflexivity].
  destruct (image0 !! "imageManifest") as [image_manifest|]; [|reflexivity].
  destruct (put_image _ _) as [result|e]; [|destruct e; reflexivity].
  destruct (result !! "image") as [image|]; [|reflexivity].
  destruct (image !! "imageId") as [imageId|]; [|reflexivity].
  destruct (imageId !! "imageDigest") as [dest_digest|]; reflexivity.
Qed.

(** Case analysis on a run: every question of the decision tree is split. *)
Ltac handler_cases :=
  rewrite ?lambda_handler_run in *;
  unfold handler_run, read_digest in *;
  cbv zeta in *;
  repeat case_match;
  cbn [fst snd In app] in *.

(** An event without a usable reference fails the validation of line 48. *)
Lemma no_reference_check event :
  truthy (event_tag event) = false -> truthy (event_digest event) = false ->
  negb (truthy (event_tag event)) && negb (truthy (event_digest event)) = true.
Proof. intros -> ->. reflexivity. Qed.

(** ** Validation and configuration *)

(** C1 (as amended): with REPO_NAME set, an event carrying neither a tag nor
    a digest gets the soft error "No image tag or digest in event"; the only
    thing the invocation does is read REPO_NAME, so no registry client is
    created or called. *)
Theorem C1_no_reference_soft_error event w repo_name :
  truthy (event_tag event) = false ->
  truthy (event_digest event) = false ->
  environ w !! "REPO_NAME" = Some repo_name ->
  (lambda_handler event tt w).2
  = Returned {[ "status" := PyStr "error";
                "message" := PyStr "No image tag or digest in event" ]}
  /\ (lambda_handler event tt w).1 = [GetEnv "REPO_NAME"]
  /\ Forall (fun a => uses_client a = false) (lambda_handler event tt w).1.
Proof.
  intros Htag Hdig Hrepo.
  rewrite lambda_handler_run. unfold handler_run. cbv zeta.
  rewrite Hrepo, (no_reference_check _ Htag Hdig). cbn [fst snd].
  repeat split. repeat constructor.
Qed.

Lemma C1_no_reference_soft_error_witness :
  (lambda_handler ∅ tt (world_with repo_only_env ecr_ok)).2
  = Returned {[ "status" := PyStr "error";
                "message" := PyStr "No image tag or digest in event" ]}
  /\ (lambda_handler ∅ tt (world_with repo_only_env ecr_ok)).1 = [GetEnv "REPO_NAME"]
  /\ Forall (fun a => uses_client a = false)
       (lambda_handler ∅ tt (world_with repo_only_env ecr_ok)).1.
Proof.
  apply (C1_no_reference_soft_error ∅ (world_with repo_only_env ecr_ok) "app");
    reflexivity.
Defined.

(** C1 as stated fails: without REPO_NAME the same event makes the handler
    raise instead of returning the error result. *)
Lemma C1_counterexample :
  event_tag ∅ = PyNone /\ event_digest ∅ = PyNone /\
  (lambda_handler ∅ tt (world_with ∅ ecr_ok)).2 = Raised (KeyError "REPO_NAME") /\
  forall r, (lambda_handler ∅ tt (world_with ∅ ecr_ok)).2 <> Returned r.
Proof. repeat split. intros r H. discriminate H. Qed.

(** C7 (as amended): when a required configuration value is missing and
    either REPO_NAME is the missing one or the event carries a tag or a
    digest, the handler raises [KeyError] for a missing key and uses no
    registry client. *)
Theorem C7_missing_configuration_raises event w k :
  In k required_keys ->
  environ w !! k = None ->
  environ w !! "REPO_NAME" = None
  \/ truthy (event_tag event) || truthy (event_digest event) = true ->
  exists k',
    In k' required_keys /\ environ w !! k' = None /\
    (lambda_handler event tt w).2 = Raised (KeyError k') /\
    Forall (fun a => uses_client a = false) (lambda_handler event tt w).1.
Proof.
  intros Hin Hk Hgate.
  assert (Hcheck : environ w !! "REPO_NAME" = None
                   \/ negb (truthy (event_tag event))
                      && negb (truthy (event_digest event)) = false).
  { destruct Hgate as [H|H]; [by left|right].
    destruct (truthy (event_tag event)), (truthy (event_digest event));
      done. }
  clear Hgate.
  handler_cases.
  all: try (destruct Hcheck; congruence).
  all: try (eexists; split; [|split; [eassumption|split; [reflexivity|]]];
            [cbn; tauto | repeat constructor]).
  all: exfalso; cbn in Hin; intuition congruence.
Qed.

Lemma C7_missing_configuration_raises_witness :
  exists k',
    In k' required_keys /\ environ (world_with repo_only_env ecr_ok) !! k' = None /\
    (lambda_handler (tag_event "v1.2.0") tt (world_with repo_only_env ecr_ok)).2
    = Raised (KeyError k') /\
    Forall (fun a => uses_client a = false)
      (lambda_handler (tag_event "v1.2.0") tt (world_with repo_only_env ecr_ok)).1.
Proof.
  apply (C7_missing_configuration_raises (tag_event "v1.2.0")
           (world_with repo_only_env ecr_ok) "DESTINATION_REGION").
  - cbn. tauto.
  - reflexivity.
  - right. reflexivity.
Defined.

(** C7 as stated fails: with four values missing, an event without tag and
    digest still gets a soft result and nothing is raised. *)
Lemma C7_counterexample :
  environ (world_with repo_only_env ecr_ok) !! "SOURCE_ACCOUNT_ID" = None /\
  (lambda_handler ∅ tt (world_with repo_only_env ecr_ok)).2
  = Returned {[ "status" := PyStr "error";
                "message" := PyStr "No image tag or digest in event" ]} /\
  forall e, (lambda_handler ∅ tt (world_with repo_only_env ecr_ok)).2 <> Raised e.
Proof. repeat split. intros e H. discriminate H. Qed.

(** C10: REPO_NAME is read before the validation, the other four values
    after it.  An event without tag and digest makes the handler raise
    [KeyError] when REPO_NAME is missing; and whenever one of the other four
    keys is read, REPO_NAME was found and the event carries a tag or a
    digest. *)
Theorem C10_repo_name_read_before_validation event w :
  (truthy (event_tag event) = false ->
   truthy (event_digest event) = false ->
   environ w !! "REPO_NAME" = None ->
   lambda_handler event tt w = ([GetEnv "REPO_NAME"], Raised (KeyError "REPO_NAME")))
  /\ (forall k, k <> "REPO_NAME" ->
      In (GetEnv k) (lambda_handler event tt w).1 ->
      truthy (event_tag event) || truthy (event_digest event) = true
      /\ is_Some (environ w !! "REPO_NAME"))
  /\ (truthy (event_tag event) = false ->
      truthy (event_digest event) = false ->
      (lambda_handler event tt w).1 = [GetEnv "REPO_NAME"]).
Proof.
  split; [|split].
  - intros Htag Hdig Hrepo. rewrite lambda_handler_run. unfold handler_run.
    cbv zeta. rewrite Hrepo. reflexivity.
  - intros k Hk Hin.
    assert (Hsplit : forall a b : bool, negb a && negb b = false -> a || b = true)
      by (intros [] []; done).
    handler_cases.
    all: try (split; [by apply Hsplit | by eexists]).
    all: exfalso; intuition congruence.
  - intros Htag Hdig. rewrite lambda_handler_run. unfold handler_run. cbv zeta.
    rewrite (no_reference_check _ Htag Hdig).
    destruct (environ w !! "REPO_NAME"); reflexivity.
Qed.

Lemma C10_repo_name_read_before_validation_witness :
  lambda_handler ∅ tt (world_with ∅ ecr_ok)
  = ([GetEnv "REPO_NAME"], Raised (KeyError "REPO_NAME")).
Proof.
  apply (proj1 (C10_repo_name_read_before_validation ∅ (world_with ∅ ecr_ok)));
    reflexivity.
Defined.

(** ** The source lookup *)

(** With the configuration complete and a reference in the event, the source
    registry is asked exactly once. *)
Lemma lookup_happens event w repo_name source_account source_region
    dest_account dest_region :
  environ w !! "REPO_NAME" = Some repo_name ->
  environ w !! "SOURCE_ACCOUNT_ID" = Some source_account ->
  environ w !! "SOURCE_REGION" = Some source_region ->
  environ w !! "DESTINATION_ACCOUNT_ID" = Some dest_account ->
  environ w !! "DESTINATION_REGION" = Some dest_region ->
  truthy (event_tag event) || truthy (event_digest event) = true ->
  exists req res,
    In (CallBatchGetImage source_region req res) (lambda_handler event tt w).1
    /\ registryId req = source_account
    /\ repositoryName req = repo_name
    /\ acceptedMediaTypes req = accepted_media_types.
Proof.
  intros Hrepo Hsa Hsr Hda Hdr Href.
  assert (Hcheck : negb (truthy (event_tag event))
                   && negb (truthy (event_digest event)) = false).
  { destruct (truthy (event_tag event)), (truthy (event_digest event)); done. }
  rewrite lambda_handler_run. unfold handler_run. cbv zeta.
  rewrite Hrepo, Hcheck, Hsa, Hsr, Hda, Hdr.
  set (req := {| registryId := source_account;
                 repositoryName := repo_name;
                 imageIds := [if truthy (event_tag event)
                              then ({[ "imageTag" := event_tag event ]}
                                    : gmap string pyval)
                              else {[ "imageDigest" := event_digest event ]}];
                 acceptedMediaTypes := accepted_media_types |}).
  exists req, (batch_get_image (boto3_client_ecr w source_region) req).
  split; [|repeat split].
  repeat case_match; cbn [fst app In]; do 7 right; left; reflexivity.
Qed.

(** C6: the lookup request names the image by tag when the event has a tag,
    and by digest when it has a digest and no tag. *)
Theorem C6_lookup_reference_kind event w region req res :
  In (CallBatchGetImage region req res) (lambda_handler event tt w).1 ->
  (truthy (event_tag event) = true ->
   imageIds req = [{[ "imageTag" := event_tag event ]}])
  /\ (truthy (event_tag event) = false ->
      truthy (event_digest event) = true
      /\ imageIds req = [{[ "imageDigest" := event_digest event ]}]).
Proof.
  intros Hin.
  handler_cases.
  all: intuition (try discriminate).
  all: simplify_eq; cbn [imageIds].
  all: try match goal with
         | H : truthy (event_tag _) = _ |- _ => rewrite H in *
         end.
  all: try reflexivity.
  all: try match goal with
         | H : negb false && negb ?b = false |- ?b = true =>
             destruct b; [reflexivity | discriminate H]
         end.
Qed.

Lemma C6_lookup_reference_kind_witness :
  imageIds {| registryId := "111111111111";
              repositoryName := "app";
              imageIds := [{[ "imageTag" := PyStr "v1.2.0" ]}];
              acceptedMediaTypes := accepted_media_types |}
  = [{[ "imageTag" := event_tag (tag_event "v1.2.0") ]}].
Proof.
  apply (C6_lookup_reference_kind (tag_event "v1.2.0") world_ok "us-east-1" _
           (Returned one_image)).
  - do 7 right. left. reflexivity.
  - reflexivity.
Defined.

(** A digest-only event is looked up by its digest. *)
Example digest_event_lookup :
  In (CallBatchGetImage "us-east-1"
        {| registryId := "111111111111";
           repositoryName := "app";
           imageIds := [{[ "imageDigest" := PyStr "sha256:abc" ]}];
           acceptedMediaTypes := accepted_media_types |}
        (Returned one_image))
     (lambda_handler (digest_event "sha256:abc") tt world_ok).1.
Proof. do 7 right. left. reflexivity. Qed.

(** ** Source image absent *)

(** An empty answer of the lookup gives a soft error that names the
    reference the event asked for. *)
Lemma empty_lookup_names_reference event w region req source_image :
  In (CallBatchGetImage region req (Returned source_image))
     (lambda_handler event tt w).1 ->
  source_image !! "images" = None \/ source_image !! "images" = Some [] ->
  exists message,
    (lambda_handler event tt w).2
    = Returned {[ "status" := PyStr "error"; "message" := PyStr message ]}
    /\ str_contains message (py_str (py_or (event_tag event) (event_digest event)))
       = true.
Proof.
  intros Hin Hempty.
  handler_cases.
  all: intuition (try discriminate).
  all: simplify_eq.
  all: eexists; split; [reflexivity | apply str_contains_suffix].
Qed.

(** A not-found exception gives a soft error that names the tag. *)
Lemma not_found_exception_names_tag event w region req msg :
  In (CallBatchGetImage region req (Raised (ImageNotFoundException msg)))
     (lambda_handler event tt w).1 ->
  exists message,
    (lambda_handler event tt w).2
    = Returned {[ "status" := PyStr "error"; "message" := PyStr message ]}
    /\ str_contains message (py_str (event_tag event)) = true.
Proof.
  intros Hin.
  handler_cases.
  all: intuition (try discriminate).
  all: simplify_eq.
  all: eexists; split; [reflexivity | apply str_contains_suffix].
Qed.

(** C2 at a digest-only event whose lookup raises the not-found exception:
    the message is built from the tag alone, which is [None], and the digest
    is not in it. *)
Theorem C2_not_found_exception_drops_digest :
  event_tag (digest_event "sha256:abc") = PyNone
  /\ event_digest (digest_event "sha256:abc") = PyStr "sha256:abc"
  /\ In (CallBatchGetImage "us-east-1"
           {| registryId := "111111111111";
              repositoryName := "app";
              imageIds := [{[ "imageDigest" := PyStr "sha256:abc" ]}];
              acceptedMediaTypes := accepted_media_types |}
           (Raised (ImageNotFoundException "no such image")))
        (lambda_handler (digest_event "sha256:abc") tt
           (world_with full_env ecr_not_found)).1
  /\ (lambda_handler (digest_event "sha256:abc") tt
        (world_with full_env ecr_not_found)).2
     = Returned {[ "status" := PyStr "error";
                   "message" := PyStr "Image not found in source: None" ]}
  /\ str_contains "Image not found in source: None" "sha256:abc" = false.
Proof.
  split; [reflexivity|]. split; [reflexivity|]. split; [|split; reflexivity].
  do 7 right. left. reflexivity.
Qed.

(** The sibling path, an empty image list, does name the digest. *)
Example empty_lookup_digest_event :
  (lambda_handler (digest_event "sha256:abc") tt (world_with full_env ecr_empty)).2
  = Returned {[ "status" := PyStr "error";
                "message" := PyStr "Image not found: sha256:abc" ]}
  /\ str_contains "Image not found: sha256:abc" "sha256:abc" = true.
Proof. split; reflexivity. Qed.

(** ** The push and the classification of its outcome *)

(** C3: when the push raises the already-exists exception, the handler
    returns the "skipped" result and raises nothing. *)
Theorem C3_already_exists_is_skipped event w region req msg :
  In (CallPutImage region req (Raised (ImageAlreadyExistsException msg)))
     (lambda_handler event tt w).1 ->
  exists r,
    (lambda_handler event tt w).2 = Returned r
    /\ r = {[ "status" := PyStr "skipped";
              "message" := PyStr "Image already exists";
              "tag" := event_tag event ]}
    /\ r !! "status" = Some (PyStr "skipped")
    /\ r !! "message" = Some (PyStr "Image already exists")
    /\ truthy (event_tag event) || truthy (event_digest event) = true.
Proof.
  intros Hin.
  handler_cases.
  all: intuition (try discriminate).
  all: simplify_eq.
  all: eexists; split; [reflexivity|].
  all: repeat split.
  all: match goal with
       | H : negb ?a && negb ?b = false |- _ =>
           destruct a, b; [reflexivity .. | discriminate H]
       end.
Qed.

Lemma C3_already_exists_is_skipped_witness :
  exists r,
    (lambda_handler (tag_event "v1.2.0") tt (world_with full_env ecr_exists)).2
    = Returned r
    /\ r = {[ "status" := PyStr "skipped";
              "message" := PyStr "Image already exists";
              "tag" := event_tag (tag_event "v1.2.0") ]}
    /\ r !! "status" = Some (PyStr "skipped")
    /\ r !! "message" = Some (PyStr "Image already exists")
    /\ truthy (event_tag (tag_event "v1.2.0"))
       || truthy (event_digest (tag_event "v1.2.0")) = true.
Proof.
  eapply (C3_already_exists_is_skipped (tag_event "v1.2.0")
            (world_with full_env ecr_exists) "eu-west-1" _ "already there").
  do 8 right. left. reflexivity.
Defined.

(** C4: an exception raised by the lookup or by the push that is neither
    the not-found nor the already-exists exception leaves the handler as it
    was raised. *)
Theorem C4_other_exceptions_propagate event w region e :
  (exists req, In (CallBatchGetImage region req (Raised e))
                  (lambda_handler event tt w).1)
  \/ (exists req, In (CallPutImage region req (Raised e))
                     (lambda_handler event tt w).1) ->
  (forall msg, e <> ImageNotFoundException msg) ->
  (forall msg, e <> ImageAlreadyExistsException msg) ->
  (lambda_handler event tt w).2 = Raised e.
Proof.
  intros Hin Hnf Hae.
  assert (Hexc : forall t, on_exception t e = Raised e).
  { intros t. destruct e; try reflexivity; [by destruct (Hnf msg) | by destruct (Hae msg)]. }
  destruct Hin as [[req Hin]|[req Hin]].
  all: handler_cases.
  all: intuition (try discriminate).
  all: simplify_eq.
  all: apply Hexc.
Qed.

Lemma C4_other_exceptions_propagate_witness :
  (lambda_handler (tag_event "v1.2.0") tt (world_with full_env ecr_throttled)).2
  = Raised (OtherException "ThrottlingException" "slow down").
Proof.
  apply (C4_other_exceptions_propagate (tag_event "v1.2.0")
           (world_with full_env ecr_throttled) "eu-west-1").
  - right. eexists. do 8 right. left. reflexivity.
  - intros msg H. discriminate H.
  - intros msg H. discriminate H.
Defined.

(** A response of the lookup without the manifest raises [KeyError] inside
    the [try] block, and it leaves the handler too. *)
Lemma missing_manifest_propagates event w region req source_image image0 rest :
  In (CallBatchGetImage region req (Returned source_image))
     (lambda_handler event tt w).1 ->
  source_image !! "images" = Some (image0 :: rest) ->
  image0 !! "imageManifest" = None ->
  (lambda_handler event tt w).2 = Raised (KeyError "imageManifest").
Proof.
  intros Hin Himages Hmanifest.
  handler_cases.
  all: intuition (try discriminate).
  all: simplify_eq.
  all: reflexivity.
Qed.

(** C5: when the push succeeds and its response carries a digest, the
    handler returns the "success" result with the two accounts and the
    repository of the configuration, the tag of the event ([None] when the
    event has none) and the digest of the push response. *)
Theorem C5_success_result event w region req result image imageId dest_digest :
  In (CallPutImage region req (Returned result)) (lambda_handler event tt w).1 ->
  result !! "image" = Some image ->
  image !! "imageId" = Some imageId ->
  imageId !! "imageDigest" = Some dest_digest ->
  exists repo_name source_account dest_account,
    environ w !! "REPO_NAME" = Some repo_name
    /\ environ w !! "SOURCE_ACCOUNT_ID" = Some source_account
    /\ environ w !! "DESTINATION_ACCOUNT_ID" = Some dest_account
    /\ (lambda_handler event tt w).2
       = Returned {[ "status" := PyStr "success";
                     "source_account" := PyStr source_account;
                     "destination_account" := PyStr dest_account;
                     "repository" := PyStr repo_name;
                     "tag" := event_tag event;
                     "digest" := dest_digest ]}.
Proof.
  intros Hin Himage Hid Hdigest.
  handler_cases.
  all: intuition (try discriminate).
  all: simplify_eq.
  all: do 3 eexists; repeat split; reflexivity.
Qed.

Lemma C5_success_result_witness :
  exists repo_name source_account dest_account,
    environ world_ok !! "REPO_NAME" = Some repo_name
    /\ environ world_ok !! "SOURCE_ACCOUNT_ID" = Some source_account
    /\ environ world_ok !! "DESTINATION_ACCOUNT_ID" = Some dest_account
    /\ (lambda_handler (digest_event "sha256:abc") tt world_ok).2
       = Returned {[ "status" := PyStr "success";
                     "source_account" := PyStr source_account;
                     "destination_account" := PyStr dest_account;
                     "repository" := PyStr repo_name;
                     "tag" := event_tag (digest_event "sha256:abc");
                     "digest" := PyStr "sha256:d0" ]}.
Proof.
  eapply (C5_success_result (digest_event "sha256:abc") world_ok "eu-west-1" _
            (pushed "sha256:d0")).
  - do 8 right. left. reflexivity.
  - reflexivity.
  - reflexivity.
  - reflexivity.
Defined.

(** The first scenario of the specification. *)
Example tag_event_success :
  (lambda_handler (tag_event "v1.2.0") tt world_ok).2
  = Returned {[ "status" := PyStr "success";
                "source_account" := PyStr "111111111111";
                "destination_account" := PyStr "222222222222";
                "repository" := PyStr "app";
                "tag" := PyStr "v1.2.0";
                "digest" := PyStr "sha256:d0" ]}.
Proof. reflexivity. Qed.

(** A digest-only event succeeds with [None] as its tag. *)
Example digest_event_success :
  exists r,
    (lambda_handler (digest_event "sha256:abc") tt world_ok).2 = Returned r
    /\ r !! "status" = Some (PyStr "success")
    /\ r !! "tag" = Some PyNone
    /\ r !! "digest" = Some (PyStr "sha256:d0").
Proof. eexists. repeat split; reflexivity. Qed.

(** C8: the push request carries the manifest exactly as the lookup
    returned it, the media type that came with it, the repository name of
    the lookup and the destination account; it has the tag of the event when
    there is one and no tag field otherwise, and no further field. *)
Theorem C8_push_request event w region req res :
  In (CallPutImage region req res) (lambda_handler event tt w).1 ->
  exists repo_name dest_account source_region lookup source_image image0 rest
         image_manifest,
    environ w !! "REPO_NAME" = Some repo_name
    /\ environ w !! "DESTINATION_ACCOUNT_ID" = Some dest_account
    /\ environ w !! "DESTINATION_REGION" = Some region
    /\ In (CallBatchGetImage source_region lookup (Returned source_image))
          (lambda_handler event tt w).1
    /\ repositoryName lookup = repo_name
    /\ source_image !! "images" = Some (image0 :: rest)
    /\ image0 !! "imageManifest" = Some image_manifest
    /\ req !! "imageManifest" = Some image_manifest
    /\ req !! "imageManifestMediaType"
       = (let manifest_media_type :=
            default PyNone (image0 !! "imageManifestMediaType") in
          if truthy manifest_media_type then Some manifest_media_type else None)
    /\ req !! "repositoryName" = Some (PyStr repo_name)
    /\ req !! "registryId" = Some (PyStr dest_account)
    /\ req !! "imageTag"
       = (if truthy (event_tag event) then Some (event_tag event) else None)
    /\ (forall k, ~ In k put_image_fields -> req !! k = None).
Proof.
  intros Hin.
  handler_cases.
  all: intuition (try discriminate).
  all: simplify_eq.
  all: do 8 eexists.
  all: repeat match goal with |- _ /\ _ => split end.
  all: try eassumption.
  all: try (do 7 right; left; reflexivity).
  all: try reflexivity.
  all: cbv zeta.
  all: repeat match goal with
         | H : truthy _ = _ |- _ => rewrite ?H; clear H
         end.
  all: try reflexivity.
  all: intros k Hk.
  all: rewrite ?lookup_insert_ne, ?lookup_singleton_ne
         by (intros <-; apply Hk; cbn; tauto).
  all: reflexivity.
Qed.

Lemma C8_push_request_witness :
  exists repo_name dest_account source_region lookup source_image image0 rest
         image_manifest,
    environ world_ok !! "REPO_NAME" = Some repo_name
    /\ environ world_ok !! "DESTINATION_ACCOUNT_ID" = Some dest_account
    /\ environ world_ok !! "DESTINATION_REGION" = Some "eu-west-1"
    /\ In (CallBatchGetImage source_region lookup (Returned source_image))
          (lambda_handler (tag_event "v1.2.0") tt world_ok).1
    /\ repositoryName lookup = repo_name
    /\ source_image !! "images" = Some (image0 :: rest)
    /\ image0 !! "imageManifest" = Some image_manifest
    /\ ({[ "registryId" := PyStr "222222222222";
           "repositoryName" := PyStr "app";
           "imageManifest" := PyStr manifest_v2;
           "imageTag" := PyStr "v1.2.0";
           "imageManifestMediaType" := PyStr media_v2 ]} : gmap string pyval)
       !! "imageManifest" = Some image_manifest
    /\ ({[ "registryId" := PyStr "222222222222";
           "repositoryName" := PyStr "app";
           "imageManifest" := PyStr manifest_v2;
           "imageTag" := PyStr "v1.2.0";
           "imageManifestMediaType" := PyStr media_v2 ]} : gmap string pyval)
       !! "imageManifestMediaType"
       = (let manifest_media_type :=
            default PyNone (image0 !! "imageManifestMediaType") in
          if truthy manifest_media_type then Some manifest_media_type else None)
    /\ ({[ "registryId" := PyStr "222222222222";
           "repositoryName" := PyStr "app";
           "imageManifest" := PyStr manifest_v2;
           "imageTag" := PyStr "v1.2.0";
           "imageManifestMediaType" := PyStr media_v2 ]} : gmap string pyval)
       !! "repositoryName" = Some (PyStr repo_name)
    /\ ({[ "registryId" := PyStr "222222222222";
           "repositoryName" := PyStr "app";
           "imageManifest" := PyStr manifest_v2;
           "imageTag" := PyStr "v1.2.0";
           "imageManifestMediaType" := PyStr media_v2 ]} : gmap string pyval)
       !! "registryId" = Some (PyStr dest_account)
    /\ ({[ "registryId" := PyStr "222222222222";
           "repositoryName" := PyStr "app";
           "imageManifest" := PyStr manifest_v2;
           "imageTag" := PyStr "v1.2.0";
           "imageManifestMediaType" := PyStr media_v2 ]} : gmap string pyval)
       !! "imageTag"
       = (if truthy (event_tag (tag_event "v1.2.0"))
          then Some (event_tag (tag_event "v1.2.0")) else None)
    /\ (forall k, ~ In k put_image_fields ->
        ({[ "registryId" := PyStr "222222222222";
            "repositoryName" := PyStr "app";
            "imageManifest" := PyStr manifest_v2;
            "imageTag" := PyStr "v1.2.0";
            "imageManifestMediaType" := PyStr media_v2 ]} : gmap string pyval)
        !! k = None).
Proof.
  apply (C8_push_request (tag_event "v1.2.0") world_ok "eu-west-1" _
           (Returned (pushed "sha256:d0"))).
  do 8 right. left. reflexivity.
Defined.

(** ** Tag and digest together *)

(** With a tag in the event the digest plays no part: any two events with
    that tag run alike. *)
Lemma tagged_run_ignores_digest event event' w :
  truthy (event_tag event) = true ->
  event_tag event' = event_tag event ->
  lambda_handler event' tt w = lambda_handler event tt w.
Proof.
  intros Htag Heq.
  rewrite !lambda_handler_run. unfold handler_run, py_or. cbv zeta.
  rewrite Heq, Htag. cbn [negb andb].
  reflexivity.
Qed.

(** C9: an event with both a tag and a digest is handled by its tag alone.
    The run is that of any other event with the same tag; the lookup is by
    tag; the push request has the tag and no digest field; and a result that
    is not an error reports the tag. *)
Theorem C9_tag_wins_over_digest event w :
  truthy (event_tag event) = true ->
  (forall event',
     event_tag event' = event_tag event ->
     lambda_handler event' tt w = lambda_handler event tt w)
  /\ (forall region req res,
        In (CallBatchGetImage region req res) (lambda_handler event tt w).1 ->
        imageIds req = [{[ "imageTag" := event_tag event ]}])
  /\ (forall region req res,
        In (CallPutImage region req res) (lambda_handler event tt w).1 ->
        req !! "imageTag" = Some (event_tag event)
        /\ req !! "imageDigest" = None)
  /\ (forall r,
        (lambda_handler event tt w).2 = Returned r ->
        r !! "status" <> Some (PyStr "error") ->
        r !! "tag" = Some (event_tag event)).
Proof.
  intros Htag.
  split; [|split; [|split]].
  - intros event' Heq. by apply tagged_run_ignores_digest.
  - intros region req res Hin.
    handler_cases.
    all: intuition (try discriminate).
    all: simplify_eq; reflexivity.
  - intros region req res Hin.
    handler_cases.
    all: intuition (try discriminate).
    all: simplify_eq.
    all: repeat match goal with
           | |- context [truthy ?v] => destruct (truthy v)
           end.
    all: reflexivity.
  - intros r Hret Hstatus.
    handler_cases.
    all: try discriminate.
    all: repeat match goal with
           | H : context [on_exception _ ?e] |- _ => destruct e; cbn [on_exception] in H
           end.
    all: simplify_eq.
    all: try reflexivity.
    all: exfalso; apply Hstatus; reflexivity.
Qed.

Lemma C9_tag_wins_over_digest_witness :
  lambda_handler (tag_event "v1.2.0") tt world_ok
  = lambda_handler (both_event "v1.2.0" "sha256:abc") tt world_ok
  /\ (exists r,
        (lambda_handler (both_event "v1.2.0" "sha256:abc") tt world_ok).2 = Returned r
        /\ r !! "tag" = Some (PyStr "v1.2.0")).
Proof.
  pose proof (C9_tag_wins_over_digest (both_event "v1.2.0" "sha256:abc") world_ok
                eq_refl) as [Hsame [_ [_ Hres]]].
  split.
  - apply Hsame. reflexivity.
  - eexists. split; [reflexivity|].
    apply Hres; [reflexivity|]. intros H. discriminate H.
Defined.

(** The push request of an event with both: tagged, no digest in it. *)
Example both_event_push :
  In (CallPutImage "eu-west-1"
        {[ "registryId" := PyStr "222222222222";
           "repositoryName" := PyStr "app";
           "imageManifest" := PyStr manifest_v2;
           "imageTag" := PyStr "v1.2.0";
           "imageManifestMediaType" := PyStr media_v2 ]}
        (Returned (pushed "sha256:d0")))
     (lambda_handler (both_event "v1.2.0" "sha256:abc") tt world_ok).1.
Proof. do 8 right. left. reflexivity. Qed.

(** * Further properties of the handler *)

(** Case analysis on where an action sits in a trace. *)
Ltac in_cases :=
  repeat match goal with
    | H : _ \/ _ |- _ => destruct H
    | H : False |- _ => destruct H
    end;
  simplify_eq.

(** ** What a run depends on *)

(** X1: the handler reads two fields of the event and nothing else.  Two
    events with the same [image-tag] and [image-digest] run alike, whatever
    else they carry; the repository named in the event plays no part. *)
Theorem X1_event_read_through_tag_and_digest event event' w :
  event_tag event' = event_tag event ->
  event_digest event' = event_digest event ->
  lambda_handler event' tt w = lambda_handler event tt w.
Proof.
  intros Htag Hdig.
  rewrite !lambda_handler_run. unfold handler_run.
  rewrite Htag, Hdig. reflexivity.
Qed.

Lemma X1_event_read_through_tag_and_digest_witness :
  lambda_handler (push_event "some-other-repo" "v1.2.0") tt world_ok
  = lambda_handler (tag_event "v1.2.0") tt world_ok.
Proof.
  apply (X1_event_read_through_tag_and_digest (tag_event "v1.2.0")
           (push_event "some-other-repo" "v1.2.0") world_ok);
    reflexivity.
Defined.

(** X2: the handler reads five environment variables and nothing else.  Two
    worlds with the same clients that agree on the five keys run alike. *)
Theorem X2_environment_read_through_five_keys event w w' :
  (forall k, In k required_keys -> environ w' !! k = environ w !! k) ->
  (forall region, boto3_client_ecr w' region = boto3_client_ecr w region) ->
  lambda_handler event tt w' = lambda_handler event tt w.
Proof.
  intros Henv Hclient.
  rewrite !lambda_handler_run. unfold handler_run. cbv zeta.
  rewrite !Henv by (cbn; tauto).
  destruct (environ w !! "REPO_NAME") as [repo_name|]; [|reflexivity].
  destruct (negb (truthy (event_tag event)) && negb (truthy (event_digest event)));
    [reflexivity|].
  destruct (environ w !! "SOURCE_ACCOUNT_ID") as [source_account|]; [|reflexivity].
  destruct (environ w !! "SOURCE_REGION") as [source_region|]; [|reflexivity].
  destruct (environ w !! "DESTINATION_ACCOUNT_ID") as [dest_account|]; [|reflexivity].
  destruct (environ w !! "DESTINATION_REGION") as [dest_region|]; [|reflexivity].
  rewrite !Hclient. reflexivity.
Qed.

Lemma X2_environment_read_through_five_keys_witness :
  lambda_handler (tag_event "v1.2.0") tt (world_with noisy_env ecr_ok)
  = lambda_handler (tag_event "v1.2.0") tt world_ok.
Proof.
  apply (X2_environment_read_through_five_keys (tag_event "v1.2.0") world_ok
           (world_with noisy_env ecr_ok)).
  - intros k Hk. cbn in Hk.
    destruct Hk as [<-|[<-|[<-|[<-|[<-|[]]]]]]; reflexivity.
  - intros region. reflexivity.
Defined.

(** ** Missing configuration *)

(** X3: when the event has a tag or a digest and a configuration value is
    missing, the [KeyError] names the first missing key in the order
    REPO_NAME, SOURCE_ACCOUNT_ID, SOURCE_REGION, DESTINATION_ACCOUNT_ID,
    DESTINATION_REGION, and the invocation has done nothing but read the
    keys up to that one. *)
Theorem X3_first_missing_key_is_reported event w k :
  truthy (event_tag event) || truthy (event_digest event) = true ->
  first_missing (environ w) required_keys = Some k ->
  lambda_handler event tt w
  = (map GetEnv (read_until (environ w) required_keys), Raised (KeyError k)).
Proof.
  intros Href Hmiss.
  assert (Hcheck : negb (truthy (event_tag event))
                   && negb (truthy (event_digest event)) = false).
  { destruct (truthy (event_tag event)), (truthy (event_digest event)); done. }
  rewrite lambda_handler_run. unfold handler_run. cbv zeta.
  unfold required_keys in *. cbn [first_missing read_until map] in *.
  destruct (environ w !! "REPO_NAME"); [rewrite Hcheck|by simplify_eq].
  destruct (environ w !! "SOURCE_ACCOUNT_ID"); [|by simplify_eq].
  destruct (environ w !! "SOURCE_REGION"); [|by simplify_eq].
  destruct (environ w !! "DESTINATION_ACCOUNT_ID"); [|by simplify_eq].
  destruct (environ w !! "DESTINATION_REGION"); [discriminate Hmiss|by simplify_eq].
Qed.

Lemma X3_first_missing_key_is_reported_witness :
  lambda_handler (tag_event "v1.2.0") tt (world_with repo_only_env ecr_ok)
  = ([GetEnv "REPO_NAME"; GetEnv "SOURCE_ACCOUNT_ID"],
     Raised (KeyError "SOURCE_ACCOUNT_ID")).
Proof.
  apply (X3_first_missing_key_is_reported (tag_event "v1.2.0")
           (world_with repo_only_env ecr_ok) "SOURCE_ACCOUNT_ID");
    reflexivity.
Defined.

(** ** The requests *)

(** X4: every lookup goes to the client of SOURCE_REGION, names the
    registry SOURCE_ACCOUNT_ID and the repository REPO_NAME, asks for one
    image and accepts the three fixed media types. *)
Theorem X4_lookup_addresses_source event w region req res :
  In (CallBatchGetImage region req res) (lambda_handler event tt w).1 ->
  environ w !! "SOURCE_REGION" = Some region
  /\ environ w !! "SOURCE_ACCOUNT_ID" = Some (registryId req)
  /\ environ w !! "REPO_NAME" = Some (repositoryName req)
  /\ acceptedMediaTypes req = accepted_media_types
  /\ length (imageIds req) = 1
  /\ res = batch_get_image (boto3_client_ecr w region) req.
Proof.
  intros Hin.
  handler_cases.
  all: in_cases.
  all: repeat split; try assumption; try reflexivity.
  all: congruence.
Qed.

Lemma X4_lookup_addresses_source_witness :
  environ world_ok !! "SOURCE_REGION" = Some "us-east-1"
  /\ environ world_ok !! "SOURCE_ACCOUNT_ID" = Some "111111111111"
  /\ environ world_ok !! "REPO_NAME" = Some "app"
  /\ accepted_media_types = accepted_media_types
  /\ length [({[ "imageDigest" := PyStr "sha256:abc" ]} : gmap string pyval)] = 1
  /\ Returned one_image
     = batch_get_image (boto3_client_ecr world_ok "us-east-1")
         {| registryId := "111111111111";
            repositoryName := "app";
            imageIds := [{[ "imageDigest" := PyStr "sha256:abc" ]}];
            acceptedMediaTypes := accepted_media_types |}.
Proof.
  apply (X4_lookup_addresses_source (digest_event "sha256:abc") world_ok "us-east-1"
           {| registryId := "111111111111";
              repositoryName := "app";
              imageIds := [{[ "imageDigest" := PyStr "sha256:abc" ]}];
              acceptedMediaTypes := accepted_media_types |}
           (Returned one_image)).
  do 7 right. left. reflexivity.
Defined.


(** X6: a push follows straight on a lookup that returned at least one
    image, and nothing follows the push. *)
Theorem X6_push_follows_lookup event w region req res :
  In (CallPutImage region req res) (lambda_handler event tt w).1 ->
  exists before source_region lookup source_image image0 rest,
    (lambda_handler event tt w).1
    = before ++ [CallBatchGetImage source_region lookup (Returned source_image);
                 CallPutImage region req res]
    /\ source_image !! "images" = Some (image0 :: rest)
    /\ Forall (fun a => is_lookup a = false /\ is_push a = false) before
    /\ res = put_image (boto3_client_ecr w region) req.
Proof.
  intros Hin.
  handler_cases.
  all: in_cases.
  all: eexists (_ :: _ :: _ :: _ :: _ :: _ :: [_]); do 5 eexists.
  all: split; [reflexivity|].
  all: split; [eassumption|].
  all: split; [repeat constructor | congruence].
Qed.

Lemma X6_push_follows_lookup_witness :
  exists before source_region lookup source_image image0 rest,
    (lambda_handler (tag_event "v1.2.0") tt (world_with full_env ecr_exists)).1
    = before ++ [CallBatchGetImage source_region lookup (Returned source_image);
                 CallPutImage "eu-west-1"
                   {[ "registryId" := PyStr "222222222222";
                      "repositoryName" := PyStr "app";
                      "imageManifest" := PyStr manifest_v2;
                      "imageTag" := PyStr "v1.2.0";
                      "imageManifestMediaType" := PyStr media_v2 ]}
                   (Raised (ImageAlreadyExistsException "already there"))]
    /\ source_image !! "images" = Some (image0 :: rest)
    /\ Forall (fun a => is_lookup a = false /\ is_push a = false) before
    /\ Raised (ImageAlreadyExistsException "already there")
       = put_image (boto3_client_ecr (world_with full_env ecr_exists) "eu-west-1")
           {[ "registryId" := PyStr "222222222222";
              "repositoryName" := PyStr "app";
              "imageManifest" := PyStr manifest_v2;
              "imageTag" := PyStr "v1.2.0";
              "imageManifestMediaType" := PyStr media_v2 ]}.
Proof.
  apply (X6_push_follows_lookup (tag_event "v1.2.0") (world_with full_env ecr_exists)).
  do 8 right. left. reflexivity.
Defined.

(** ** Answers the handler cannot use *)

(** X7: when the first image of the lookup answer has no manifest, the
    handler raises [KeyError] for ["imageManifest"] and pushes nothing. *)
Theorem X7_missing_manifest_raises event w region req source_image image0 rest :
  In (CallBatchGetImage region req (Returned source_image))
     (lambda_handler event tt w).1 ->
  source_image !! "images" = Some (image0 :: rest) ->
  image0 !! "imageManifest" = None ->
  (lambda_handler event tt w).2 = Raised (KeyError "imageManifest")
  /\ List.filter is_push (lambda_handler event tt w).1 = [].
Proof.
  intros Hin Himages Hmanifest.
  handler_cases.
  all: in_cases.
  all: split; reflexivity.
Qed.

Lemma X7_missing_manifest_raises_witness :
  (lambda_handler (tag_event "v1.2.0") tt (world_with full_env ecr_no_manifest)).2
  = Raised (KeyError "imageManifest")
  /\ List.filter is_push
       (lambda_handler (tag_event "v1.2.0") tt (world_with full_env ecr_no_manifest)).1
     = [].
Proof.
  eapply (X7_missing_manifest_raises (tag_event "v1.2.0")
            (world_with full_env ecr_no_manifest) "us-east-1").
  - do 7 right. left. reflexivity.
  - reflexivity.
  - reflexivity.
Defined.

(** X8: when the push returns an answer in which
    [result["image"]["imageId"]["imageDigest"]] cannot be read, the handler
    raises [KeyError] for the missing key although the image was pushed. *)
Theorem X8_unreadable_push_answer_raises event w region req result :
  In (CallPutImage region req (Returned result)) (lambda_handler event tt w).1 ->
  (result !! "image" = None ->
   (lambda_handler event tt w).2 = Raised (KeyError "image"))
  /\ (forall image,
        result !! "image" = Some image -> image !! "imageId" = None ->
        (lambda_handler event tt w).2 = Raised (KeyError "imageId"))
  /\ (forall image imageId,
        result !! "image" = Some image -> image !! "imageId" = Some imageId ->
        imageId !! "imageDigest" = None ->
        (lambda_handler event tt w).2 = Raised (KeyError "imageDigest")).
Proof.
  intros Hin.
  handler_cases.
  all: in_cases.
  all: repeat split; intros; simplify_eq; reflexivity.
Qed.

Lemma X8_unreadable_push_answer_raises_witness :
  (lambda_handler (tag_event "v1.2.0") tt (world_with full_env ecr_no_digest)).2
  = Raised (KeyError "imageDigest").
Proof.
  eapply (X8_unreadable_push_answer_raises (tag_event "v1.2.0")
            (world_with full_env ecr_no_digest) "eu-west-1").
  - do 8 right. left. reflexivity.
  - reflexivity.
  - reflexivity.
  - reflexivity.
Defined.

(** X9: when the lookup answer has no ["images"] entry or an empty one, the
    handler returns the soft error "Image not found: " followed by the tag,
    or by the digest when the event has no tag, and pushes nothing. *)
Theorem X9_empty_lookup_is_soft_error event w region req source_image :
  In (CallBatchGetImage region req (Returned source_image))
     (lambda_handler event tt w).1 ->
  source_image !! "images" = None \/ source_image !! "images" = Some [] ->
  (lambda_handler event tt w).2
  = Returned {[ "status" := PyStr "error";
                "message" := PyStr ("Image not found: "
                                    +:+ py_str (py_or (event_tag event)
                                                  (event_digest event))) ]}
  /\ List.filter is_push (lambda_handler event tt w).1 = [].
Proof.
  intros Hin Hempty.
  handler_cases.
  all: in_cases.
  all: split; reflexivity.
Qed.

Lemma X9_empty_lookup_is_soft_error_witness :
  (lambda_handler (digest_event "sha256:abc") tt (world_with full_env ecr_empty)).2
  = Returned {[ "status" := PyStr "error";
                "message" := PyStr ("Image not found: "
                                    +:+ py_str (py_or (event_tag (digest_event "sha256:abc"))
                                                  (event_digest (digest_event "sha256:abc")))) ]}
  /\ List.filter is_push
       (lambda_handler (digest_event "sha256:abc") tt (world_with full_env ecr_empty)).1
     = [].
Proof.
  eapply (X9_empty_lookup_is_soft_error (digest_event "sha256:abc")
            (world_with full_env ecr_empty) "us-east-1").
  - do 7 right. left. reflexivity.
  - right. reflexivity.
Defined.

(** ** What comes out *)

(** Case analysis on the exception an [except] clause receives. *)
Ltac exception_cases :=
  repeat match goal with
    | H : context [on_exception _ ?e] |- _ =>
        destruct e; cbn [on_exception] in H
    | |- context [on_exception _ ?e] =>
        destruct e; cbn [on_exception]
    end.

(** X10: every result the handler returns has a ["status"], which is
    "success", "error" or "skipped"; an "error" result has a ["message"] and
    no ["tag"], the other two have a ["tag"]. *)
Theorem X10_result_shape event w r :
  (lambda_handler event tt w).2 = Returned r ->
  exists status,
    r !! "status" = Some (PyStr status)
    /\ In status statuses
    /\ (status = "error" ->
        (exists message, r !! "message" = Some (PyStr message))
        /\ r !! "tag" = None)
    /\ (status <> "error" -> r !! "tag" = Some (event_tag event)).
Proof.
  intros Hret.
  handler_cases.
  all: try discriminate.
  all: exception_cases.
  all: simplify_eq.
  all: eexists; split; [reflexivity|].
  all: split; [cbn; tauto|].
  all: split; [intros Hs; try discriminate Hs | intros Hs; try (by destruct Hs)].
  all: try (split; [eexists|]; reflexivity).
  all: reflexivity.
Qed.

Lemma X10_result_shape_witness :
  exists status,
    ({[ "status" := PyStr "skipped";
        "message" := PyStr "Image already exists";
        "tag" := PyStr "v1.2.0" ]} : gmap string pyval) !! "status"
    = Some (PyStr status)
    /\ In status statuses
    /\ (status = "error" ->
        (exists message,
            ({[ "status" := PyStr "skipped";
                "message" := PyStr "Image already exists";
                "tag" := PyStr "v1.2.0" ]} : gmap string pyval) !! "message"
            = Some (PyStr message))
        /\ ({[ "status" := PyStr "skipped";
               "message" := PyStr "Image already exists";
               "tag" := PyStr "v1.2.0" ]} : gmap string pyval) !! "tag" = None)
    /\ (status <> "error" ->
        ({[ "status" := PyStr "skipped";
            "message" := PyStr "Image already exists";
            "tag" := PyStr "v1.2.0" ]} : gmap string pyval) !! "tag"
        = Some (event_tag (tag_event "v1.2.0"))).
Proof.
  apply (X10_result_shape (tag_event "v1.2.0") (world_with full_env ecr_exists)).
  reflexivity.
Defined.



(** X12: the handler reports "success" only after a push that returned, and
    the digest it reports is the one of that answer; it reports "skipped"
    only after a registry call that raised the already-exists exception. *)
Theorem X12_success_and_skipped_have_a_cause event w r :
  (lambda_handler event tt w).2 = Returned r ->
  (r !! "status" = Some (PyStr "success") ->
   exists region req result image imageId,
     In (CallPutImage region req (Returned result)) (lambda_handler event tt w).1
     /\ result !! "image" = Some image
     /\ image !! "imageId" = Some imageId
     /\ imageId !! "imageDigest" = r !! "digest")
  /\ (r !! "status" = Some (PyStr "skipped") ->
      exists region msg,
        (exists req, In (CallBatchGetImage region req
                           (Raised (ImageAlreadyExistsException msg)))
                        (lambda_handler event tt w).1)
        \/ (exists req, In (CallPutImage region req
                              (Raised (ImageAlreadyExistsException msg)))
                           (lambda_handler event tt w).1)).
Proof.
  intros Hret.
  handler_cases.
  all: try discriminate.
  all: exception_cases.
  all: simplify_eq.
  all: split; intros Hs; try discriminate Hs.
  all: try (do 2 eexists; left; eexists; do 7 right; left; reflexivity).
  all: try (do 2 eexists; right; eexists; do 8 right; left; reflexivity).
  all: do 5 eexists; split; [do 8 right; left; reflexivity|].
  all: split; [eassumption|split; [eassumption|]].
  all: match goal with H : _ !! "imageDigest" = Some _ |- _ => rewrite H end.
  all: reflexivity.
Qed.

Lemma X12_success_and_skipped_have_a_cause_witness :
  exists region req result image imageId,
    In (CallPutImage region req (Returned result))
       (lambda_handler (tag_event "v1.2.0") tt world_ok).1
    /\ result !! "image" = Some image
    /\ image !! "imageId" = Some imageId
    /\ imageId !! "imageDigest"
       = ({[ "status" := PyStr "success";
             "source_account" := PyStr "111111111111";
             "destination_account" := PyStr "222222222222";
             "repository" := PyStr "app";
             "tag" := PyStr "v1.2.0";
             "digest" := PyStr "sha256:d0" ]} : gmap string pyval) !! "digest".
Proof.
  apply (proj1 (X12_success_and_skipped_have_a_cause (tag_event "v1.2.0") world_ok _
                  eq_refl)).
  reflexivity.
Defined.

(** X13: for an event with a tag, a not-found exception of the lookup gives
    the soft error "Image not found in source: " followed by the tag, and
    nothing is pushed. *)
Theorem X13_not_found_exception_is_soft_error event w region req msg :
  truthy (event_tag event) = true ->
  In (CallBatchGetImage region req (Raised (ImageNotFoundException msg)))
     (lambda_handler event tt w).1 ->
  (lambda_handler event tt w).2
  = Returned {[ "status" := PyStr "error";
                "message" := PyStr ("Image not found in source: "
                                    +:+ py_str (event_tag event)) ]}
  /\ List.filter is_push (lambda_handler event tt w).1 = [].
Proof.
  intros Htag Hin.
  handler_cases.
  all: in_cases.
  all: split; reflexivity.
Qed.

Lemma X13_not_found_exception_is_soft_error_witness :
  (lambda_handler (tag_event "v1.2.0") tt (world_with full_env ecr_not_found)).2
  = Returned {[ "status" := PyStr "error";
                "message" := PyStr ("Image not found in source: "
                                    +:+ py_str (event_tag (tag_event "v1.2.0"))) ]}
  /\ List.filter is_push
       (lambda_handler (tag_event "v1.2.0") tt (world_with full_env ecr_not_found)).1
     = [].
Proof.
  eapply (X13_not_found_exception_is_soft_error (tag_event "v1.2.0")
            (world_with full_env ecr_not_found) "us-east-1").
  - reflexivity.
  - do 7 right. left. reflexivity.
Defined.
